(** * A shallow embedding of the Flask helpdesk service [app.py]

    The service keeps tickets in a single SQL table [dbo.tickets] and exposes
    them over a small JSON HTTP API guarded by an optional API key.  This file
    embeds the request handlers of [app.py] together with the parts of Python,
    Flask and the SQL data store they rely on:

    - JSON request bodies as an inductive [json] type, with Python's
      truthiness, [dict.get] and [str.strip];
    - Python exceptions as a small error monad [result]; an exception that
      escapes a handler is answered by Flask with a 500 response;
    - the data store as an explicit [store] value threaded through every
      handler (the table rows, the next IDENTITY value, the value of
      [SYSUTCDATETIME()] and whether the server is reachable). *)

Set Warnings "-register-all".
From Stdlib Require Import String Ascii List Bool ZArith Lia.
From Stdlib Require Import Sorting.Permutation Sorting.Sorted.
Import ListNotations.
Open Scope string_scope.
Open Scope Z_scope.

(** ** JSON values and the Python operations used on them *)

Inductive json : Type :=
| JNull : json
| JBool : bool -> json
| JNum : Z -> json
| JStr : string -> json
| JArr : list json -> json
| JObj : list (string * json) -> json.

(** Python truthiness of a decoded JSON value ([bool(x)]). *)
Definition truthy (j : json) : bool :=
  match j with
  | JNull => false
  | JBool b => b
  | JNum n => negb (n =? 0)
  | JStr s => negb (String.eqb s "")
  | JArr l => match l with [] => false | _ => true end
  | JObj o => match o with [] => false | _ => true end
  end.

(** Python exceptions that the handlers can raise. *)
Inductive exn : Type :=
| AttributeError : exn   (* a method called on a value of the wrong type *)
| DBError : exn.         (* any error reported by the data store *)

Inductive result (A : Type) : Type :=
| Ok : A -> result A
| Raise : exn -> result A.
Arguments Ok {A} _.
Arguments Raise {A} _.

Definition bind {A B : Type} (m : result A) (k : A -> result B) : result B :=
  match m with
  | Ok a => k a
  | Raise e => Raise e
  end.

Notation "x <- m ;; k" := (bind m (fun x => k))
  (at level 61, m at next level, right associativity).

(** Lookup in a decoded JSON object: Python's [json] module keeps the last
    binding of a duplicated key. *)
Fixpoint assoc_last (k : string) (o : list (string * json)) : option json :=
  match o with
  | [] => None
  | (k', v) :: o' =>
      match assoc_last k o' with
      | Some w => Some w
      | None => if String.eqb k k' then Some v else None
      end
  end.

(** [data.get(k)]: only a [dict] has a [get] method. *)
Definition py_get (data : json) (k : string) : result (option json) :=
  match data with
  | JObj o => Ok (assoc_last k o)
  | _ => Raise AttributeError
  end.

(** [x or y], where [None] stands for Python's [None]. *)
Definition py_or (x : option json) (y : json) : json :=
  match x with
  | Some v => if truthy v then v else y
  | None => y
  end.

(** Python's [str.isspace] on an ASCII character. *)
Definition is_space (c : ascii) : bool :=
  let n := nat_of_ascii c in
  ((9 <=? n) && (n <=? 13))%nat || ((28 <=? n) && (n <=? 32))%nat.

Fixpoint lstrip (s : string) : string :=
  match s with
  | EmptyString => EmptyString
  | String c r => if is_space c then lstrip r else s
  end.

Fixpoint string_rev (s : string) : string :=
  match s with
  | EmptyString => EmptyString
  | String c r => string_rev r ++ String c EmptyString
  end.

Definition rstrip (s : string) : string := string_rev (lstrip (string_rev s)).

Definition strip (s : string) : string := rstrip (lstrip s).

(** [x.strip()]: only a [str] has a [strip] method. *)
Definition py_strip (x : json) : result string :=
  match x with
  | JStr s => Ok (strip s)
  | _ => Raise AttributeError
  end.

(** [request.get_json(silent=True) or {}]; [None] is a body that is absent or
    not valid JSON. *)
Definition request_data (body : option json) : json :=
  match body with
  | Some j => if truthy j then j else JObj []
  | None => JObj []
  end.

(** [(data.get(k) or "").strip()] *)
Definition field_str (data : json) (k : string) : result string :=
  v <- py_get data k ;; py_strip (py_or v (JStr "")).

(** ** The data store *)

(** A row of [dbo.tickets] (see [init_db]). *)
Record ticket : Type := mkTicket {
  t_id : Z;                 (* INT IDENTITY(1,1) PRIMARY KEY *)
  t_title : string;         (* NVARCHAR(255) NOT NULL *)
  t_description : string;   (* NVARCHAR(MAX) NOT NULL *)
  t_status : string;        (* NVARCHAR(50) NOT NULL DEFAULT 'Open' *)
  t_created_at : Z          (* DATETIME2 NOT NULL DEFAULT SYSUTCDATETIME() *)
}.

(** The database server as the service sees it.  [db_up] is false when the
    server cannot be reached: every statement then raises. *)
Record store : Type := mkStore {
  db_up : bool;
  tickets : list ticket;
  next_id : Z;              (* next IDENTITY value *)
  clock : Z                 (* current value of SYSUTCDATETIME() *)
}.

Definition set_tickets (s : store) (ts : list ticket) : store :=
  mkStore (db_up s) ts (next_id s) (clock s).

(** [INSERT INTO dbo.tickets (title, description) VALUES (:t, :d)]: the
    omitted columns take their defaults; a title longer than the column
    width is refused by the server, and so is an IDENTITY value outside the
    range of the [INT] column (arithmetic overflow). *)
Definition sql_insert (t d : string) (s : store) : result store :=
  if negb (db_up s) then Raise DBError
  else if negb ((-2147483648 <=? next_id s) && (next_id s <=? 2147483647)) then Raise DBError
  else if (255 <? String.length t)%nat then Raise DBError
  else Ok (mkStore (db_up s)
             (tickets s ++ [mkTicket (next_id s) t d "Open" (clock s)])
             (next_id s + 1) (clock s)).

(** The row after [SET status = :s]. *)
Definition set_status (st : string) (t : ticket) : ticket :=
  mkTicket (t_id t) (t_title t) (t_description t) st (t_created_at t).

(** Binding a Python [int] as a statement parameter: pyodbc sends a value
    outside the 64-bit range as [SQL_NUMERIC], whose precision SQL Server
    caps at 38 digits; a larger value makes the statement raise. *)
Definition sql_int_param_ok (v : Z) : bool := Z.abs v <? 10 ^ 38.

(** [UPDATE dbo.tickets SET status = :s WHERE id = :id]; the number is the
    statement's [rowcount]. *)
Definition sql_update_status (st : string) (id : Z) (s : store)
  : result (nat * store) :=
  if negb (db_up s) then Raise DBError
  else if negb (sql_int_param_ok id) then Raise DBError
  else if (50 <? String.length st)%nat then Raise DBError
  else Ok (length (filter (fun t => t_id t =? id) (tickets s)),
           set_tickets s (map (fun t => if t_id t =? id then set_status st t else t)
                              (tickets s))).

(** [DELETE FROM dbo.tickets WHERE id = :id] *)
Definition sql_delete (id : Z) (s : store) : result (nat * store) :=
  if negb (db_up s) then Raise DBError
  else if negb (sql_int_param_ok id) then Raise DBError
  else Ok (length (filter (fun t => t_id t =? id) (tickets s)),
           set_tickets s (filter (fun t => negb (t_id t =? id)) (tickets s))).

(** [ORDER BY created_at DESC], as the server evaluates it: rows with equal
    [created_at] come in an order the query does not fix; this model returns
    them in reverse table order. *)
Fixpoint insert_desc (t : ticket) (l : list ticket) : list ticket :=
  match l with
  | [] => [t]
  | u :: l' => if t_created_at u <? t_created_at t then t :: l
               else u :: insert_desc t l'
  end.

Fixpoint sort_created_desc (l : list ticket) : list ticket :=
  match l with
  | [] => []
  | t :: l' => insert_desc t (sort_created_desc l')
  end.

(** [SELECT id, title, description, status, created_at FROM dbo.tickets
    ORDER BY created_at DESC] *)
Definition sql_select_all (s : store) : result (list ticket) :=
  if negb (db_up s) then Raise DBError
  else Ok (sort_created_desc (tickets s)).

(** [SELECT ... WHERE id = :id], then [.first()] *)
Definition sql_select_one (id : Z) (s : store) : result (option ticket) :=
  if negb (db_up s) then Raise DBError
  else if negb (sql_int_param_ok id) then Raise DBError
  else Ok (find (fun t => t_id t =? id) (tickets s)).

(** ** Responses *)

Inductive payload : Type :=
| PJson : json -> payload
| PText : string -> payload.   (* a plain text or HTML page *)

Record response : Type := mkResponse {
  code : Z;
  content : payload;
  set_cookie : option string   (* value of an [api_key] cookie set by the response *)
}.

Definition json_response (c : Z) (j : json) : response := mkResponse c (PJson j) None.

Definition error_response (c : Z) (msg : string) : response :=
  json_response c (JObj [("error", JStr msg)]).

Definition message_response (c : Z) (msg : string) : response :=
  json_response c (JObj [("message", JStr msg)]).

(** Flask's answer to an exception that escapes a view function. *)
Definition internal_error : response :=
  mkResponse 500 (PText "Internal Server Error") None.

(** A view runs in the error monad; an escaping exception becomes a 500 and,
    since [engine.begin()] rolls the transaction back, leaves the store as it
    was. *)
Definition run (m : result (response * store)) (s : store) : response * store :=
  match m with
  | Ok p => p
  | Raise _ => (internal_error, s)
  end.

(** ** Views *)

(** [dict(r)] for a selected row; [created_at] is kept as its timestamp. *)
Definition ticket_json (t : ticket) : json :=
  JObj [("id", JNum (t_id t)); ("title", JStr (t_title t));
        ("description", JStr (t_description t)); ("status", JStr (t_status t));
        ("created_at", JNum (t_created_at t))].

(** [status in {"Open", "In Progress", "Closed"}] *)
Definition allowed_status (st : string) : bool :=
  String.eqb st "Open" || String.eqb st "In Progress" || String.eqb st "Closed".

Definition home (s : store) : response * store :=
  (mkResponse 200 (PText "Helpdesk API is running. Visit /ui") None, s).

Definition health (s : store) : response * store :=
  (json_response 200 (JObj [("ok", JBool true)]), s).

(** [render_template("ui.html")]: the page is named, not rendered. *)
Definition ui (s : store) : response * store :=
  (mkResponse 200 (PText "ui.html") None, s).

Definition login (API_KEY : string) (body : option json) (s : store)
  : response * store :=
  run (let data := request_data body in
       key <- field_str data "api_key" ;;
       if String.eqb API_KEY "" then
         Ok (message_response 200 "API_KEY not set on server; login not required", s)
       else if negb (String.eqb key API_KEY) then
         Ok (error_response 401 "invalid key", s)
       else
         Ok (mkResponse 200 (PJson (JObj [("message", JStr "logged in")])) (Some key), s))
      s.

Definition get_tickets (s : store) : response * store :=
  run (rows <- sql_select_all s ;;
       Ok (json_response 200 (JArr (map ticket_json rows)), s)) s.

Definition get_ticket (ticket_id : Z) (s : store) : response * store :=
  run (row <- sql_select_one ticket_id s ;;
       match row with
       | None => Ok (error_response 404 "not found", s)
       | Some t => Ok (json_response 200 (ticket_json t), s)
       end) s.

Definition post_ticket (body : option json) (s : store) : response * store :=
  run (let data := request_data body in
       title <- field_str data "title" ;;
       description <- field_str data "description" ;;
       if String.eqb title "" || String.eqb description "" then
         Ok (error_response 400 "title and description required", s)
       else
         s' <- sql_insert title description s ;;
         Ok (message_response 201 "ticket created", s')) s.

Definition update_ticket (ticket_id : Z) (body : option json) (s : store)
  : response * store :=
  run (let data := request_data body in
       status <- field_str data "status" ;;
       if negb (allowed_status status) then
         Ok (error_response 400 "status must be Open, In Progress, or Closed", s)
       else
         res <- sql_update_status status ticket_id s ;;
         let (rowcount, s') := res in
         if (rowcount =? 0)%nat then Ok (error_response 404 "not found", s')
         else Ok (message_response 200 "ticket updated", s')) s.

Definition delete_ticket (ticket_id : Z) (s : store) : response * store :=
  run (res <- sql_delete ticket_id s ;;
       let (rowcount, s') := res in
       if (rowcount =? 0)%nat then Ok (error_response 404 "not found", s')
       else Ok (message_response 200 "ticket deleted", s')) s.

(** [openapi()] and [docs()] return fixed documents; they are named, not
    spelled out. *)
Definition openapi (s : store) : response * store :=
  (mkResponse 200 (PText "openapi.json") None, s).

Definition docs (s : store) : response * store :=
  (mkResponse 200 (PText "docs.html") None, s).

(** ** Configuration, authentication and dispatch *)

(** [os.environ.get("API_KEY", "").strip()] *)
Definition configured_api_key (env_value : option string) : string :=
  strip (match env_value with Some v => v | None => "" end).

Inductive meth : Type := GET | POST | PUT | PATCH | DELETE.

Record request : Type := mkRequest {
  req_method : meth;
  req_path : string;
  req_header_key : option string;   (* request.headers.get("X-API-KEY") *)
  req_cookie_key : option string;   (* request.cookies.get("api_key") *)
  req_body : option json            (* request.get_json(silent=True) *)
}.

Definition PUBLIC_PATHS : list string :=
  ["/"; "/ui"; "/login"; "/health"; "/openapi.json"; "/docs"].

Definition is_public (path : string) : bool :=
  existsb (String.eqb path) PUBLIC_PATHS || String.prefix "/static/" path.

(** [request.headers.get("X-API-KEY") or request.cookies.get("api_key")] *)
Definition presented_key (hdr cookie : option string) : option string :=
  match hdr with
  | Some h => if String.eqb h "" then cookie else Some h
  | None => cookie
  end.

Definition key_eqb (k : option string) (API_KEY : string) : bool :=
  match k with
  | Some v => String.eqb v API_KEY
  | None => false
  end.

(** The [before_request] hook: [None] lets the request through, [Some r]
    answers it with [r] before any view runs. *)
Definition require_key (API_KEY : string) (r : request) : option response :=
  if String.eqb API_KEY "" then None
  else if is_public (req_path r) then None
  else if negb (key_eqb (presented_key (req_header_key r) (req_cookie_key r)) API_KEY)
  then Some (error_response 401 "unauthorized")
  else None.

(** Werkzeug's [int] converter: one or more ASCII digits. *)
Fixpoint digits_value (acc : Z) (s : string) : option Z :=
  match s with
  | EmptyString => Some acc
  | String c r =>
      let n := Z.of_nat (nat_of_ascii c) in
      if (48 <=? n) && (n <=? 57) then digits_value (10 * acc + (n - 48)) r
      else None
  end.

Definition parse_int (s : string) : option Z :=
  match s with
  | EmptyString => None
  | _ => digits_value 0 s
  end.

Fixpoint strip_prefix (p s : string) : option string :=
  match p, s with
  | EmptyString, _ => Some s
  | String a p', String b s' => if Ascii.eqb a b then strip_prefix p' s' else None
  | String _ _, EmptyString => None
  end.

Inductive endpoint : Type :=
| EHome | EHealth | EUi | ELogin | ETickets | ETicket (id : Z)
| EOpenapi | EDocs | EStatic.

(** The URL map of [app]. *)
Definition match_path (path : string) : option endpoint :=
  if String.eqb path "/" then Some EHome
  else if String.eqb path "/health" then Some EHealth
  else if String.eqb path "/ui" then Some EUi
  else if String.eqb path "/login" then Some ELogin
  else if String.eqb path "/tickets" then Some ETickets
  else if String.eqb path "/openapi.json" then Some EOpenapi
  else if String.eqb path "/docs" then Some EDocs
  else match strip_prefix "/tickets/" path with
       | Some rest => option_map ETicket (parse_int rest)
       | None => if String.prefix "/static/" path then Some EStatic else None
       end.

Definition not_found : response := mkResponse 404 (PText "Not Found") None.
Definition method_not_allowed : response :=
  mkResponse 405 (PText "Method Not Allowed") None.

(** Routing and the view functions. *)
Definition handle (API_KEY : string) (r : request) (s : store) : response * store :=
  match match_path (req_path r), req_method r with
  | None, _ => (not_found, s)
  | Some EHome, GET => home s
  | Some EHealth, GET => health s
  | Some EUi, GET => ui s
  | Some ELogin, POST => login API_KEY (req_body r) s
  | Some ETickets, GET => get_tickets s
  | Some ETickets, POST => post_ticket (req_body r) s
  | Some (ETicket id), GET => get_ticket id s
  | Some (ETicket id), PATCH => update_ticket id (req_body r) s
  | Some (ETicket id), DELETE => delete_ticket id s
  | Some EOpenapi, GET => openapi s
  | Some EDocs, GET => docs s
  | Some EStatic, GET => (not_found, s)   (* the repository ships no static files *)
  | Some _, _ => (method_not_allowed, s)
  end.

(** Flask runs the [before_request] hook, then the matched view. *)
Definition dispatch (API_KEY : string) (r : request) (s : store) : response * store :=
  match require_key API_KEY r with
  | Some resp => (resp, s)
  | None => handle API_KEY r s
  end.

(** ** Definitions used by the statements below *)

Definition empty_store : store := mkStore true [] 1 100.

Definition matches_id (id : Z) (t : ticket) : bool := t_id t =? id.

Definition newer_or_same (a b : ticket) : Prop := t_created_at b <= t_created_at a.

(** The states of the data store the service can reach from an empty table:
    any request to the service under any configured key, the clock moving
    on, and the server becoming unreachable or reachable again. *)
Inductive reachable : store -> Prop :=
| reach_init (up : bool) (n c : Z) : reachable (mkStore up [] n c)
| reach_request (API_KEY : string) (r : request) (s : store) :
    reachable s -> reachable (snd (dispatch API_KEY r s))
| reach_tick (c : Z) (s : store) :
    reachable s -> reachable (mkStore (db_up s) (tickets s) (next_id s) c)
| reach_outage (up : bool) (s : store) :
    reachable s -> reachable (mkStore up (tickets s) (next_id s) (clock s)).

Definition statuses_allowed (s : store) : Prop :=
  Forall (fun t => allowed_status (t_status t) = true) (tickets s).

(** ** Start-up configuration check *)

(** Truthiness of an environment value [os.environ.get(k)]. *)
Definition env_set (v : option string) : bool :=
  match v with
  | Some x => negb (String.eqb x "")
  | None => false
  end.

(** [", ".join(l)] *)
Fixpoint join (sep : string) (l : list string) : string :=
  match l with
  | [] => ""
  | [x] => x
  | x :: l' => x ++ sep ++ join sep l'
  end.

(** The [{"DB_SERVER": DB_SERVER, ...}] mapping of the module's start-up check. *)
Definition db_env (server name user pass : option string) : list (string * option string) :=
  [("DB_SERVER", server); ("DB_NAME", name); ("DB_USER", user); ("DB_PASSWORD", pass)].

(** [missing = [k for k, v in {...}.items() if not v]] *)
Definition env_missing (env : list (string * option string)) : list string :=
  map fst (filter (fun kv => negb (env_set (snd kv))) env).

Inductive startup : Type :=
| Started : startup
| StartupRuntimeError : string -> startup.   (* [raise RuntimeError(msg)] *)

(** The module-level check run when [app.py] is imported. *)
Definition startup_check (server name user pass : option string) : startup :=
  if env_set server && env_set name && env_set user && env_set pass then Started
  else StartupRuntimeError
         ("Missing environment variables: "
          ++ join ", " (env_missing (db_env server name user pass))).

(** Every row id is below the next IDENTITY value, and ids are distinct. *)
Definition ids_ok (s : store) : Prop :=
  Forall (fun t => t_id t < next_id s) (tickets s) /\ NoDup (map t_id (tickets s)).

(** ** Sample runs *)

Example strip_sample : strip "  a b  " = "a b".
Proof. reflexivity. Qed.

Example post_sample :
  post_ticket (Some (JObj [("title", JStr " printer "); ("description", JStr "jammed")]))
    empty_store
  = (message_response 201 "ticket created",
     mkStore true [mkTicket 1 "printer" "jammed" "Open" 100] 2 100).
Proof. reflexivity. Qed.

Example route_sample : match_path "/tickets/42" = Some (ETicket 42).
Proof. reflexivity. Qed.

Example auth_sample :
  dispatch "k" (mkRequest GET "/tickets" (Some "") (Some "k") None) empty_store
  = (json_response 200 (JArr []), empty_store).
Proof. reflexivity. Qed.

(** ** General facts about the views *)

Lemma request_data_obj (o : list (string * json)) :
  request_data (Some (JObj o)) = JObj o.
Proof. destruct o; reflexivity. Qed.

Lemma assoc_last_skip (k k' : string) (v : json) (o1 o2 : list (string * json)) :
  k <> k' -> assoc_last k (o1 ++ (k', v) :: o2) = assoc_last k (o1 ++ o2).
Proof.
  intros Hne. induction o1 as [| [k1 v1] o1 IH]; simpl.
  - destruct (assoc_last k o2); [reflexivity |].
    apply String.eqb_neq in Hne. rewrite Hne. reflexivity.
  - rewrite IH. reflexivity.
Qed.

Lemma field_str_skip (k k' : string) (v : json) (o1 o2 : list (string * json)) :
  k <> k' ->
  field_str (JObj (o1 ++ (k', v) :: o2)) k = field_str (JObj (o1 ++ o2)) k.
Proof.
  intros Hne. unfold field_str, py_get. simpl. rewrite assoc_last_skip by exact Hne.
  reflexivity.
Qed.

(** Every outcome of [post_ticket]: an escaped exception, a 400, or one row
    appended with the default status. *)
Lemma post_ticket_cases (body : option json) (s : store) :
  post_ticket body s = (internal_error, s)
  \/ post_ticket body s = (error_response 400 "title and description required", s)
  \/ exists title description,
       field_str (request_data body) "title" = Ok title
       /\ field_str (request_data body) "description" = Ok description
       /\ title <> "" /\ description <> ""
       /\ db_up s = true
       /\ post_ticket body s
          = (message_response 201 "ticket created",
             mkStore (db_up s)
               (tickets s ++ [mkTicket (next_id s) title description "Open" (clock s)])
               (next_id s + 1) (clock s)).
Proof.
  unfold post_ticket. cbv zeta.
  destruct (field_str (request_data body) "title") as [title |] eqn:Ht; simpl;
    [| left; reflexivity].
  destruct (field_str (request_data body) "description") as [description |] eqn:Hd;
    simpl; [| left; reflexivity].
  destruct (String.eqb title "") eqn:E1; simpl; [right; left; reflexivity |].
  destruct (String.eqb description "") eqn:E2; simpl; [right; left; reflexivity |].
  unfold sql_insert.
  destruct (db_up s) eqn:Hup; simpl; [| left; reflexivity].
  destruct (_ && _); simpl; [| left; reflexivity].
  destruct (255 <? String.length title)%nat; simpl; [left; reflexivity |].
  right; right. exists title, description.
  apply String.eqb_neq in E1, E2. repeat split; auto.
Qed.

(** Every outcome of [update_ticket]: an escaped exception, a 400, or the
    [UPDATE] statement run with an allowed status. *)
Lemma update_ticket_cases (id : Z) (body : option json) (s : store) :
  update_ticket id body s = (internal_error, s)
  \/ update_ticket id body s
     = (error_response 400 "status must be Open, In Progress, or Closed", s)
  \/ exists st,
       field_str (request_data body) "status" = Ok st
       /\ allowed_status st = true
       /\ db_up s = true
       /\ update_ticket id body s
          = ((if Nat.eqb (length (filter (matches_id id) (tickets s))) 0
              then error_response 404 "not found"
              else message_response 200 "ticket updated"),
             set_tickets s (map (fun t => if t_id t =? id then set_status st t else t)
                                (tickets s))).
Proof.
  unfold update_ticket. cbv zeta.
  destruct (field_str (request_data body) "status") as [st |] eqn:Hs; simpl;
    [| left; reflexivity].
  destruct (allowed_status st) eqn:Ha; simpl; [| right; left; reflexivity].
  unfold sql_update_status.
  destruct (db_up s) eqn:Hup; simpl; [| left; reflexivity].
  destruct (sql_int_param_ok id); simpl; [| left; reflexivity].
  destruct (50 <? String.length st)%nat; simpl; [left; reflexivity |].
  right; right. exists st. repeat split; auto.
  unfold matches_id.
  destruct (Nat.eqb (length (filter (fun t => t_id t =? id) (tickets s))) 0); reflexivity.
Qed.

Lemma delete_ticket_cases (id : Z) (s : store) :
  delete_ticket id s = (internal_error, s)
  \/ (db_up s = true
      /\ delete_ticket id s
         = ((if Nat.eqb (length (filter (matches_id id) (tickets s))) 0
             then error_response 404 "not found"
             else message_response 200 "ticket deleted"),
            set_tickets s (filter (fun t => negb (matches_id id t)) (tickets s)))).
Proof.
  unfold delete_ticket, sql_delete, matches_id.
  destruct (db_up s) eqn:Hup; simpl; [| left; reflexivity].
  destruct (sql_int_param_ok id); simpl; [| left; reflexivity].
  right. split; [reflexivity |].
  destruct (Nat.eqb (length (filter (fun t => t_id t =? id) (tickets s))) 0); reflexivity.
Qed.

Lemma filter_matches_nil (id : Z) (l : list ticket) :
  ~ In id (map t_id l) -> filter (matches_id id) l = [].
Proof.
  induction l as [| t l IH]; simpl; intros Hn; [reflexivity |].
  unfold matches_id at 1. destruct (Z.eqb_spec (t_id t) id) as [E | E].
  - exfalso. apply Hn. left. exact E.
  - apply IH. intros H. apply Hn. right. exact H.
Qed.

Lemma allowed_status_short (st : string) :
  allowed_status st = true -> (50 <? String.length st)%nat = false.
Proof.
  unfold allowed_status. intros H.
  repeat (apply orb_true_iff in H; destruct H as [H | H]);
    apply String.eqb_eq in H; subst; reflexivity.
Qed.

Lemma Forall2_map_same {A : Type} (P : A -> A -> Prop) (f : A -> A) (l : list A) :
  (forall x, P x (f x)) -> Forall2 P l (map f l).
Proof.
  intros Hf. induction l as [| x l IH]; simpl; constructor; auto.
Qed.

(** ** Creating a ticket *)

(** C1 (counterexample): a create request whose [status] is not an allowed
    value is not rejected: with a non-empty title and description the row is
    inserted. *)
Lemma post_ticket_unrecognized_status_inserts :
  let (r, s') := post_ticket
                   (Some (JObj [("title", JStr "a"); ("description", JStr "b");
                                ("status", JStr "Bogus")])) empty_store in
  code r = 201 /\ length (tickets s') = S (length (tickets empty_store)).
Proof. vm_compute. split; reflexivity. Qed.

(** C1 (amended): the create view never reads [status]: a request is answered
    exactly as the same request without that field, and whatever the request,
    the rows already in the table are kept and only rows with status [Open]
    are added. *)
Theorem post_ticket_status_not_read :
  (forall (o1 o2 : list (string * json)) (v : json) (s : store),
      post_ticket (Some (JObj (o1 ++ ("status", v) :: o2))) s
      = post_ticket (Some (JObj (o1 ++ o2))) s)
  /\ (forall (body : option json) (s : store),
      exists added, tickets (snd (post_ticket body s)) = (tickets s ++ added)%list
                    /\ Forall (fun t => t_status t = "Open") added).
Proof.
  split.
  - intros o1 o2 v s. unfold post_ticket. rewrite !request_data_obj. cbv zeta.
    rewrite (field_str_skip "title" "status") by discriminate.
    rewrite (field_str_skip "description" "status") by discriminate.
    reflexivity.
  - intros body s.
    destruct (post_ticket_cases body s) as [H | [H | (t & d & _ & _ & _ & _ & _ & H)]];
      rewrite H; simpl.
    + exists []. rewrite app_nil_r. split; [reflexivity | constructor].
    + exists []. rewrite app_nil_r. split; [reflexivity | constructor].
    + eexists. split; [reflexivity |]. constructor; [reflexivity | constructor].
Qed.

(** C10: a successful create (201) appends exactly one row, and its status is
    the column default [Open]. *)
Theorem post_ticket_created_open (body : option json) (s : store) :
  code (fst (post_ticket body s)) = 201 ->
  exists t, tickets (snd (post_ticket body s)) = (tickets s ++ [t])%list
            /\ t_status t = "Open".
Proof.
  intros Hc.
  destruct (post_ticket_cases body s) as [H | [H | (t & d & _ & _ & _ & _ & _ & H)]];
    rewrite H in *; simpl in *; try discriminate.
  eexists. split; reflexivity.
Qed.

Lemma post_ticket_created_open_witness :
  code (fst (post_ticket (Some (JObj [("title", JStr "a"); ("description", JStr "b");
                                      ("status", JStr "Closed")])) empty_store)) = 201
  /\ exists t, tickets (snd (post_ticket
                 (Some (JObj [("title", JStr "a"); ("description", JStr "b");
                              ("status", JStr "Closed")])) empty_store))
               = (tickets empty_store ++ [t])%list /\ t_status t = "Open".
Proof.
  split; [reflexivity |].
  apply post_ticket_created_open. reflexivity.
Defined.

(** C5 (code bug): a create request whose title is missing but whose
    description is a JSON number fails in [.strip()] before the emptiness
    check; Flask answers 500, not 400. *)
Theorem post_ticket_missing_title_non_string_description (s : store) :
  post_ticket (Some (JObj [("description", JNum 7)])) s = (internal_error, s)
  /\ code internal_error = 500.
Proof. split; reflexivity. Qed.

(** ** Updating and deleting a ticket *)

(** C3 (code bug): an update whose [status] is a JSON number, not an allowed
    value, fails in [.strip()]; Flask answers 500, not 400 (the table is left
    as it was). *)
Theorem update_ticket_non_string_status (id : Z) (s : store) :
  update_ticket id (Some (JObj [("status", JNum 5)])) s = (internal_error, s)
  /\ code internal_error = 500.
Proof. split; reflexivity. Qed.

Lemma int_value_bindable (id : Z) :
  -2147483648 <= id <= 2147483647 -> sql_int_param_ok id = true.
Proof.
  intros Hr. unfold sql_int_param_ok. apply Z.ltb_lt.
  assert (Hb : 2147483648 < 10 ^ 38) by reflexivity.
  apply Z.abs_lt. lia.
Qed.

Lemma post_ticket_created_in_range (body : option json) (s : store) :
  code (fst (post_ticket body s)) = 201 -> -2147483648 <= next_id s <= 2147483647.
Proof.
  unfold post_ticket. cbv zeta.
  destruct (field_str (request_data body) "title"); simpl; [| discriminate].
  destruct (field_str (request_data body) "description"); simpl; [| discriminate].
  destruct (_ || _); simpl; [discriminate |].
  unfold sql_insert. destruct (db_up s); simpl; [| discriminate].
  destruct (-2147483648 <=? next_id s) eqn:E1, (next_id s <=? 2147483647) eqn:E2;
    simpl; try discriminate.
  intros _. apply Z.leb_le in E1, E2. lia.
Qed.

Lemma int_column_id_bindable (id : Z) :
  0 <= id <= 2147483647 -> sql_int_param_ok id = true.
Proof.
  intros Hr. unfold sql_int_param_ok. apply Z.ltb_lt.
  rewrite Z.abs_eq by lia.
  assert (Hb : 2147483647 < 10 ^ 38) by reflexivity. lia.
Qed.

(** C4 (counterexample): an id of 41 digits is routed by [<int:ticket_id>]
    but cannot be bound as a statement parameter: with no row at all, the
    update and the delete both answer 500, not 404. *)
Lemma mutations_of_huge_id_fail :
  code (fst (dispatch "" (mkRequest PATCH "/tickets/10000000000000000000000000000000000000000"
                            None None (Some (JObj [("status", JStr "Closed")])))
               empty_store)) = 500
  /\ code (fst (dispatch "" (mkRequest DELETE "/tickets/10000000000000000000000000000000000000000"
                              None None None) empty_store)) = 500
  /\ tickets empty_store = [].
Proof. vm_compute. split; [reflexivity | split; reflexivity]. Qed.

(** C4 (amended): with the data store reachable, for an id in the range of
    the [INT] id column that no row has, an update with an allowed status and
    a delete both answer 404. *)
Theorem mutations_of_missing_id_not_found (id : Z) (body : option json) (st : string)
    (s : store) :
  db_up s = true ->
  0 <= id <= 2147483647 ->
  ~ In id (map t_id (tickets s)) ->
  field_str (request_data body) "status" = Ok st ->
  allowed_status st = true ->
  code (fst (update_ticket id body s)) = 404 /\ code (fst (delete_ticket id s)) = 404.
Proof.
  intros Hup Hr Hn Hs Ha. pose proof (int_column_id_bindable id Hr) as Hb. split.
  - unfold update_ticket. cbv zeta. rewrite Hs. simpl. rewrite Ha. simpl.
    unfold sql_update_status. rewrite Hup, Hb, (allowed_status_short st Ha). simpl.
    change (filter (fun t => t_id t =? id) (tickets s))
      with (filter (matches_id id) (tickets s)).
    rewrite (filter_matches_nil id (tickets s) Hn). reflexivity.
  - unfold delete_ticket, sql_delete. rewrite Hup, Hb. simpl.
    change (filter (fun t => t_id t =? id) (tickets s))
      with (filter (matches_id id) (tickets s)).
    rewrite (filter_matches_nil id (tickets s) Hn). reflexivity.
Qed.

Lemma mutations_of_missing_id_not_found_witness :
  code (fst (update_ticket 7 (Some (JObj [("status", JStr " Closed ")])) empty_store)) = 404
  /\ code (fst (delete_ticket 7 empty_store)) = 404.
Proof.
  apply (mutations_of_missing_id_not_found 7 _ "Closed" empty_store).
  - reflexivity.
  - split; discriminate.
  - simpl. tauto.
  - vm_compute. reflexivity.
  - reflexivity.
Defined.

(** C6: a successful update (200) changes only the [status] of the rows with
    the given id, to the trimmed status of the request; every other column of
    those rows, and every other row, is unchanged. *)
Theorem update_ticket_status_frame (id : Z) (body : option json) (s : store) :
  code (fst (update_ticket id body s)) = 200 ->
  exists st,
    field_str (request_data body) "status" = Ok st
    /\ allowed_status st = true
    /\ Forall2 (fun t t' =>
                  t_id t' = t_id t /\ t_title t' = t_title t
                  /\ t_description t' = t_description t
                  /\ t_created_at t' = t_created_at t
                  /\ (t_id t = id -> t_status t' = st)
                  /\ (t_id t <> id -> t' = t))
               (tickets s) (tickets (snd (update_ticket id body s))).
Proof.
  intros Hc.
  destruct (update_ticket_cases id body s) as [H | [H | (st & Hs & Ha & _ & H)]];
    rewrite H in *; simpl in *; try discriminate.
  exists st. split; [exact Hs |]. split; [exact Ha |].
  apply Forall2_map_same. intros t.
  destruct (Z.eqb_spec (t_id t) id) as [E | E]; simpl.
  - repeat split; auto. intros Hne. contradiction.
  - repeat split; auto. intros Heq. contradiction.
Qed.

Lemma update_ticket_status_frame_witness :
  code (fst (update_ticket 1 (Some (JObj [("status", JStr "Closed")]))
               (snd (post_ticket (Some (JObj [("title", JStr "a");
                                              ("description", JStr "b")]))
                                 empty_store)))) = 200
  /\ exists st,
    field_str (request_data (Some (JObj [("status", JStr "Closed")]))) "status" = Ok st
    /\ allowed_status st = true
    /\ Forall2 (fun t t' =>
                  t_id t' = t_id t /\ t_title t' = t_title t
                  /\ t_description t' = t_description t
                  /\ t_created_at t' = t_created_at t
                  /\ (t_id t = 1 -> t_status t' = st)
                  /\ (t_id t <> 1 -> t' = t))
               (tickets (snd (post_ticket (Some (JObj [("title", JStr "a");
                                              ("description", JStr "b")]))
                                 empty_store)))
               (tickets (snd (update_ticket 1 (Some (JObj [("status", JStr "Closed")]))
               (snd (post_ticket (Some (JObj [("title", JStr "a");
                                              ("description", JStr "b")]))
                                 empty_store))))).
Proof.
  split; [vm_compute; reflexivity |].
  apply update_ticket_status_frame. vm_compute. reflexivity.
Defined.

(** ** Listing tickets *)

Lemma insert_desc_perm (t : ticket) (l : list ticket) :
  Permutation (t :: l) (insert_desc t l).
Proof.
  induction l as [| u l IH]; simpl; [reflexivity |].
  destruct (t_created_at u <? t_created_at t); [reflexivity |].
  rewrite perm_swap. constructor. exact IH.
Qed.

Lemma sort_created_desc_perm (l : list ticket) : Permutation l (sort_created_desc l).
Proof.
  induction l as [| t l IH]; simpl; [constructor |].
  rewrite <- insert_desc_perm. constructor. exact IH.
Qed.

Lemma insert_desc_sorted (t : ticket) (l : list ticket) :
  Sorted newer_or_same l -> Sorted newer_or_same (insert_desc t l).
Proof.
  induction l as [| u l IH]; simpl; intros Hs.
  - repeat constructor.
  - destruct (Z.ltb_spec (t_created_at u) (t_created_at t)) as [Hlt | Hge].
    + constructor; [exact Hs |]. constructor. unfold newer_or_same. lia.
    + inversion Hs as [| ? ? Hl Hd]; subst. constructor; [apply IH; exact Hl |].
      destruct l as [| w l]; simpl.
      * constructor. unfold newer_or_same. lia.
      * destruct (t_created_at w <? t_created_at t).
        -- constructor. unfold newer_or_same. lia.
        -- inversion Hd. constructor. assumption.
Qed.

Lemma sort_created_desc_sorted (l : list ticket) :
  Sorted newer_or_same (sort_created_desc l).
Proof.
  induction l as [| t l IH]; simpl; [constructor |].
  apply insert_desc_sorted. exact IH.
Qed.

(** C7: with the data store reachable, [GET /tickets] answers 200 with every
    row of the table, each once (a permutation of the table, so nothing is
    cut off), ordered by [created_at] from newest to oldest. *)
Theorem get_tickets_all_newest_first (s : store) :
  db_up s = true ->
  exists rows,
    get_tickets s = (json_response 200 (JArr (map ticket_json rows)), s)
    /\ Permutation (tickets s) rows
    /\ Sorted (fun a b => t_created_at b <= t_created_at a) rows.
Proof.
  intros Hup. exists (sort_created_desc (tickets s)).
  split; [| split].
  - unfold get_tickets, sql_select_all. rewrite Hup. reflexivity.
  - apply sort_created_desc_perm.
  - apply sort_created_desc_sorted.
Qed.

Lemma get_tickets_all_newest_first_witness :
  db_up (mkStore true [mkTicket 1 "a" "x" "Open" 5; mkTicket 2 "b" "y" "Closed" 9;
                       mkTicket 3 "c" "z" "Open" 7] 4 10) = true
  /\ exists rows,
    get_tickets (mkStore true [mkTicket 1 "a" "x" "Open" 5; mkTicket 2 "b" "y" "Closed" 9;
                               mkTicket 3 "c" "z" "Open" 7] 4 10)
    = (json_response 200 (JArr (map ticket_json rows)),
       mkStore true [mkTicket 1 "a" "x" "Open" 5; mkTicket 2 "b" "y" "Closed" 9;
                     mkTicket 3 "c" "z" "Open" 7] 4 10)
    /\ Permutation [mkTicket 1 "a" "x" "Open" 5; mkTicket 2 "b" "y" "Closed" 9;
                    mkTicket 3 "c" "z" "Open" 7] rows
    /\ Sorted (fun a b => t_created_at b <= t_created_at a) rows.
Proof.
  split; [reflexivity |].
  apply (get_tickets_all_newest_first
           (mkStore true [mkTicket 1 "a" "x" "Open" 5; mkTicket 2 "b" "y" "Closed" 9;
                          mkTicket 3 "c" "z" "Open" 7] 4 10)).
  reflexivity.
Defined.

Example get_tickets_sample :
  get_tickets (mkStore true [mkTicket 1 "a" "x" "Open" 5; mkTicket 2 "b" "y" "Closed" 9;
                             mkTicket 3 "c" "z" "Open" 7] 4 10)
  = (json_response 200 (JArr (map ticket_json
       [mkTicket 2 "b" "y" "Closed" 9; mkTicket 3 "c" "z" "Open" 7;
        mkTicket 1 "a" "x" "Open" 5])),
     mkStore true [mkTicket 1 "a" "x" "Open" 5; mkTicket 2 "b" "y" "Closed" 9;
                   mkTicket 3 "c" "z" "Open" 7] 4 10).
Proof. reflexivity. Qed.

(** ** The status invariant *)

Lemma dispatch_keeps_statuses (API_KEY : string) (r : request) (s : store) :
  statuses_allowed s -> statuses_allowed (snd (dispatch API_KEY r s)).
Proof.
  intros Hs. unfold dispatch.
  destruct (require_key API_KEY r); [exact Hs |].
  unfold handle.
  destruct (match_path (req_path r)) as [e |]; [| exact Hs].
  destruct e, (req_method r); try exact Hs.
  - (* POST /login *)
    unfold login. cbv zeta.
    destruct (field_str (request_data (req_body r)) "api_key"); simpl; [| exact Hs].
    destruct (String.eqb API_KEY ""); [exact Hs |].
    destruct (negb _); exact Hs.
  - (* GET /tickets *)
    unfold get_tickets, sql_select_all. destruct (db_up s); exact Hs.
  - (* POST /tickets *)
    destruct (post_ticket_cases (req_body r) s) as [H | [H | (t & d & _ & _ & _ & _ & _ & H)]];
      rewrite H; simpl; try exact Hs.
    unfold statuses_allowed in *. simpl. apply Forall_app. split; [exact Hs |].
    constructor; [reflexivity | constructor].
  - (* GET /tickets/<id> *)
    unfold get_ticket, sql_select_one. destruct (db_up s); simpl; [| exact Hs].
    destruct (sql_int_param_ok id); simpl; [| exact Hs].
    destruct (find _ _); exact Hs.
  - (* PATCH /tickets/<id> *)
    destruct (update_ticket_cases id (req_body r) s) as [H | [H | (st & _ & Ha & _ & H)]];
      rewrite H; simpl; try exact Hs.
    unfold statuses_allowed in *. simpl. apply Forall_map.
    eapply Forall_impl; [| exact Hs]. intros t Ht. simpl.
    destruct (t_id t =? id); [exact Ha | exact Ht].
  - (* DELETE /tickets/<id> *)
    destruct (delete_ticket_cases id s) as [H | [_ H]]; rewrite H; simpl; [exact Hs |].
    unfold statuses_allowed in *. simpl. rewrite Forall_forall in *.
    intros t Ht. apply filter_In in Ht. apply Hs. apply Ht.
Qed.

(** C8: in every state reachable from an empty table, every ticket's status
    is [Open], [In Progress] or [Closed].  The table itself has no such
    constraint: the views keep it. *)
Theorem reachable_statuses_allowed (s : store) :
  reachable s ->
  Forall (fun t => t_status t = "Open" \/ t_status t = "In Progress"
                   \/ t_status t = "Closed") (tickets s).
Proof.
  intros Hr.
  assert (Hinv : statuses_allowed s).
  { induction Hr as [up n c | K r s _ IH | c s _ IH | up s _ IH].
    - constructor.
    - apply dispatch_keeps_statuses. exact IH.
    - exact IH.
    - exact IH. }
  eapply Forall_impl; [| exact Hinv]. intros t Ht.
  unfold allowed_status in Ht.
  repeat (apply orb_true_iff in Ht; destruct Ht as [Ht | Ht]);
    apply String.eqb_eq in Ht; auto.
Qed.

Lemma reachable_statuses_allowed_witness :
  reachable (snd (dispatch "" (mkRequest POST "/tickets" None None
                   (Some (JObj [("title", JStr "a"); ("description", JStr "b")])))
                   (mkStore true [] 1 0)))
  /\ Forall (fun t => t_status t = "Open" \/ t_status t = "In Progress"
                      \/ t_status t = "Closed")
       (tickets (snd (dispatch "" (mkRequest POST "/tickets" None None
                   (Some (JObj [("title", JStr "a"); ("description", JStr "b")])))
                   (mkStore true [] 1 0)))).
Proof.
  assert (Hr : reachable (snd (dispatch "" (mkRequest POST "/tickets" None None
                   (Some (JObj [("title", JStr "a"); ("description", JStr "b")])))
                   (mkStore true [] 1 0)))).
  { apply reach_request. apply reach_init. }
  split; [exact Hr |].
  apply reachable_statuses_allowed. exact Hr.
Defined.

(** ** Health check *)

(** C9 (counterexample): with the data store unreachable, [GET /health] still
    answers 200 with [{"ok": true}]: no degraded 500 is reported. *)
Lemma health_unreachable_store_not_degraded :
  let (r, s') := dispatch "k" (mkRequest GET "/health" None None None)
                   (mkStore false [] 1 0) in
  code r = 200 /\ code r <> 500 /\ content r = PJson (JObj [("ok", JBool true)]).
Proof. vm_compute. split; [reflexivity | split; [discriminate | reflexivity]]. Qed.

(** C9 (amended): [GET /health] runs no query: under any key, for any store,
    it answers 200 with [{"ok": true}] and leaves the store unchanged. *)
Theorem health_constant (API_KEY : string) (hdr cookie : option string)
    (body : option json) (s : store) :
  dispatch API_KEY (mkRequest GET "/health" hdr cookie body) s
  = (json_response 200 (JObj [("ok", JBool true)]), s).
Proof.
  unfold dispatch, require_key. simpl.
  destruct (String.eqb API_KEY ""); reflexivity.
Qed.

(** ** Authentication *)

(** C2: with no key configured the gate lets every request through to its
    view; with a key configured, a request to a non-public path whose
    [X-API-KEY] header and [api_key] cookie both differ from the key is
    answered 401 before any view runs, and the store is untouched. *)
Theorem require_key_gate :
  (forall (r : request) (s : store),
      require_key "" r = None /\ dispatch "" r s = handle "" r s)
  /\ (forall (API_KEY : string) (r : request) (s : store),
      API_KEY <> "" ->
      is_public (req_path r) = false ->
      req_header_key r <> Some API_KEY ->
      req_cookie_key r <> Some API_KEY ->
      require_key API_KEY r = Some (error_response 401 "unauthorized")
      /\ dispatch API_KEY r s = (error_response 401 "unauthorized", s)).
Proof.
  split.
  - intros r s. split; reflexivity.
  - intros K r s HK Hp Hh Hc.
    assert (Hreq : require_key K r = Some (error_response 401 "unauthorized")).
    { unfold require_key.
      apply String.eqb_neq in HK. rewrite HK, Hp.
      assert (Hk : key_eqb (presented_key (req_header_key r) (req_cookie_key r)) K = false).
      { assert (Hc' : key_eqb (req_cookie_key r) K = false).
        { destruct (req_cookie_key r) as [c |]; simpl; [| reflexivity].
          apply String.eqb_neq. intros E. apply Hc. rewrite E. reflexivity. }
        destruct (req_header_key r) as [h |]; simpl; [| exact Hc'].
        destruct (String.eqb h ""); [exact Hc' |]. simpl.
        apply String.eqb_neq. intros E. apply Hh. rewrite E. reflexivity. }
      rewrite Hk. reflexivity. }
    split; [exact Hreq |].
    unfold dispatch. rewrite Hreq. reflexivity.
Qed.

Lemma require_key_gate_witness :
  require_key "k" (mkRequest DELETE "/tickets/1" (Some "x") None None)
    = Some (error_response 401 "unauthorized")
  /\ dispatch "k" (mkRequest DELETE "/tickets/1" (Some "x") None None) empty_store
    = (error_response 401 "unauthorized", empty_store).
Proof.
  apply (proj2 require_key_gate "k" (mkRequest DELETE "/tickets/1" (Some "x") None None)
           empty_store).
  - discriminate.
  - reflexivity.
  - simpl. discriminate.
  - simpl. discriminate.
Defined.

(** * Further properties of the service *)

(** ** Authentication gate *)

(** Public paths ([/], [/ui], [/login], [/health], [/openapi.json], [/docs]
    and anything under [/static/]) pass the gate under any key and with any
    credentials. *)
Theorem public_paths_pass_gate (API_KEY : string) (r : request) :
  is_public (req_path r) = true -> require_key API_KEY r = None.
Proof.
  intros Hp. unfold require_key. rewrite Hp.
  destruct (String.eqb API_KEY ""); reflexivity.
Qed.

Lemma public_paths_pass_gate_witness :
  is_public (req_path (mkRequest POST "/login" None None None)) = true
  /\ require_key "k" (mkRequest POST "/login" None None None) = None.
Proof.
  split; [reflexivity |].
  apply public_paths_pass_gate. reflexivity.
Defined.

(** The gate only ever answers 401 with [{"error": "unauthorized"}], and only
    when a key is configured and the path is not public. *)
Theorem gate_rejects_only_with_key (API_KEY : string) (r : request) (resp : response) :
  require_key API_KEY r = Some resp ->
  API_KEY <> "" /\ is_public (req_path r) = false
  /\ resp = error_response 401 "unauthorized".
Proof.
  unfold require_key.
  destruct (String.eqb_spec API_KEY "") as [E | E]; [discriminate |].
  destruct (is_public (req_path r)); [discriminate |].
  destruct (negb _); [| discriminate].
  intros H. injection H as <-. auto.
Qed.

Lemma gate_rejects_only_with_key_witness :
  require_key "k" (mkRequest GET "/tickets" None None None)
    = Some (error_response 401 "unauthorized")
  /\ ("k" <> "" /\ is_public (req_path (mkRequest GET "/tickets" None None None)) = false
      /\ error_response 401 "unauthorized" = error_response 401 "unauthorized").
Proof.
  split; [reflexivity |].
  apply gate_rejects_only_with_key. reflexivity.
Defined.

(** A non-empty [X-API-KEY] header takes precedence over the cookie: a wrong
    header is refused even when the [api_key] cookie holds the right key. *)
Theorem wrong_header_overrides_cookie (API_KEY h : string) (r : request) (s : store) :
  API_KEY <> "" ->
  is_public (req_path r) = false ->
  req_header_key r = Some h -> h <> "" -> h <> API_KEY ->
  dispatch API_KEY r s = (error_response 401 "unauthorized", s).
Proof.
  intros HK Hp Hh Hne Hw. unfold dispatch, require_key.
  apply String.eqb_neq in HK. rewrite HK, Hp.
  unfold presented_key. rewrite Hh.
  apply String.eqb_neq in Hne. rewrite Hne. simpl.
  apply String.eqb_neq in Hw. rewrite Hw. reflexivity.
Qed.

Lemma wrong_header_overrides_cookie_witness :
  dispatch "k" (mkRequest GET "/tickets" (Some "x") (Some "k") None) empty_store
  = (error_response 401 "unauthorized", empty_store).
Proof.
  apply (wrong_header_overrides_cookie "k" "x"); try reflexivity; discriminate.
Defined.

(** When the [X-API-KEY] header is absent or empty, the [api_key] cookie is
    checked instead: the right key there lets the request through. *)
Theorem cookie_used_without_header (API_KEY : string) (r : request) :
  (req_header_key r = None \/ req_header_key r = Some "") ->
  req_cookie_key r = Some API_KEY ->
  require_key API_KEY r = None.
Proof.
  intros Hh Hc. unfold require_key.
  destruct (String.eqb API_KEY ""); [reflexivity |].
  destruct (is_public (req_path r)); [reflexivity |].
  assert (Hk : presented_key (req_header_key r) (req_cookie_key r) = Some API_KEY).
  { destruct Hh as [Hh | Hh]; rewrite Hh; exact Hc. }
  rewrite Hk. simpl. rewrite String.eqb_refl. reflexivity.
Qed.

Lemma cookie_used_without_header_witness :
  require_key "k" (mkRequest DELETE "/tickets/3" (Some "") (Some "k") None) = None.
Proof.
  apply cookie_used_without_header; [right; reflexivity | reflexivity].
Defined.

(** An [API_KEY] made only of whitespace is stripped to the empty string,
    which disables the gate: every request passes. *)
Theorem blank_api_key_disables_gate (v : string) (r : request) :
  lstrip v = "" -> require_key (configured_api_key (Some v)) r = None.
Proof.
  intros Hv. unfold configured_api_key, strip. rewrite Hv. reflexivity.
Qed.

Lemma blank_api_key_disables_gate_witness :
  lstrip "   " = ""
  /\ require_key (configured_api_key (Some "   "))
       (mkRequest DELETE "/tickets/3" None None None) = None.
Proof.
  split; [reflexivity |]. apply blank_api_key_disables_gate. reflexivity.
Defined.

(** ** Login *)

(** [/login] never touches the store, and the only cookie it sets is the
    configured key; it sets it exactly when a key is configured and the
    trimmed [api_key] of the body equals it. *)
Theorem login_sets_only_the_key (API_KEY : string) (body : option json) (s : store) :
  snd (login API_KEY body s) = s
  /\ (set_cookie (fst (login API_KEY body s)) = None
      \/ set_cookie (fst (login API_KEY body s)) = Some API_KEY)
  /\ (set_cookie (fst (login API_KEY body s)) = Some API_KEY
      <-> API_KEY <> "" /\ field_str (request_data body) "api_key" = Ok API_KEY).
Proof.
  unfold login. cbv zeta.
  destruct (field_str (request_data body) "api_key") as [key |] eqn:Hk; simpl.
  - destruct (String.eqb_spec API_KEY "") as [E | E]; simpl.
    + split; [reflexivity |]. split; [left; reflexivity |].
      split; [discriminate | intros [H _]; contradiction].
    + destruct (String.eqb_spec key API_KEY) as [E2 | E2]; simpl.
      * subst key. split; [reflexivity |]. split; [right; reflexivity |].
        split; [auto | reflexivity].
      * split; [reflexivity |]. split; [left; reflexivity |].
        split; [discriminate |]. intros [_ H]. injection H as H. contradiction.
  - split; [reflexivity |]. split; [left; reflexivity |].
    split; [discriminate | intros [_ H]; discriminate].
Qed.

(** The cookie set by [/login] authenticates later requests that carry it
    and no [X-API-KEY] header. *)
Theorem login_cookie_authenticates (API_KEY : string) (body : option json) (s : store)
    (v : string) (r : request) :
  set_cookie (fst (login API_KEY body s)) = Some v ->
  req_header_key r = None -> req_cookie_key r = Some v ->
  require_key API_KEY r = None.
Proof.
  intros Hc Hh Hr.
  destruct (login_sets_only_the_key API_KEY body s) as [_ [[H | H] _]];
    rewrite H in Hc; [discriminate |].
  injection Hc as <-.
  apply cookie_used_without_header; [left; exact Hh | exact Hr].
Qed.

Lemma login_cookie_authenticates_witness :
  set_cookie (fst (login "k" (Some (JObj [("api_key", JStr " k ")])) empty_store)) = Some "k"
  /\ require_key "k" (mkRequest GET "/tickets" None (Some "k") None) = None.
Proof.
  split; [reflexivity |].
  apply (login_cookie_authenticates "k" (Some (JObj [("api_key", JStr " k ")]))
           empty_store "k"); reflexivity.
Defined.

(** ** Start-up *)

(** The import-time check fails exactly when at least one of [DB_SERVER],
    [DB_NAME], [DB_USER], [DB_PASSWORD] is unset or empty, and its message
    lists precisely those variables, in that order, separated by [", "]. *)
Theorem startup_check_lists_missing (server name user pass : option string) :
  startup_check server name user pass
  = match env_missing (db_env server name user pass) with
    | [] => Started
    | names => StartupRuntimeError ("Missing environment variables: " ++ join ", " names)
    end.
Proof.
  unfold startup_check, env_missing, db_env. simpl.
  destruct (env_set server), (env_set name), (env_set user), (env_set pass);
    reflexivity.
Qed.

Example startup_check_sample :
  startup_check (Some "srv") None (Some "") (Some "pw")
  = StartupRuntimeError "Missing environment variables: DB_NAME, DB_USER".
Proof. reflexivity. Qed.

(** ** Effects on the store *)

Lemma update_map_no_match (id : Z) (st : string) (l : list ticket) :
  length (filter (matches_id id) l) = 0%nat ->
  map (fun t => if t_id t =? id then set_status st t else t) l = l.
Proof.
  unfold matches_id.
  induction l as [| t l IH]; simpl; [reflexivity |].
  destruct (t_id t =? id); simpl; [discriminate |].
  intros H. f_equal. apply IH. exact H.
Qed.

Lemma delete_filter_no_match (id : Z) (l : list ticket) :
  length (filter (matches_id id) l) = 0%nat ->
  filter (fun t => negb (matches_id id t)) l = l.
Proof.
  unfold matches_id.
  induction l as [| t l IH]; simpl; [reflexivity |].
  destruct (t_id t =? id); simpl; [discriminate |].
  intros H. f_equal. apply IH. exact H.
Qed.

(** A GET request never changes the store, whatever the path. *)
Theorem get_requests_read_only (API_KEY : string) (r : request) (s : store) :
  req_method r = GET -> snd (dispatch API_KEY r s) = s.
Proof.
  intros Hm. unfold dispatch.
  destruct (require_key API_KEY r); [reflexivity |].
  unfold handle. rewrite Hm.
  destruct (match_path (req_path r)) as [[] |]; try reflexivity.
  - unfold get_tickets, sql_select_all. destruct (db_up s); reflexivity.
  - unfold get_ticket, sql_select_one. destruct (db_up s); simpl; [| reflexivity].
    destruct (sql_int_param_ok id); simpl; [| reflexivity].
    destruct (find _ _); reflexivity.
Qed.

Lemma get_requests_read_only_witness :
  snd (dispatch "" (mkRequest GET "/tickets/1" None None None)
         (mkStore true [mkTicket 1 "a" "b" "Open" 0] 2 0))
  = mkStore true [mkTicket 1 "a" "b" "Open" 0] 2 0.
Proof. apply get_requests_read_only. reflexivity. Defined.

(** A request answered with anything but 200 or 201 leaves every row of the
    table as it was. *)
Theorem failed_requests_keep_rows (API_KEY : string) (r : request) (s : store) :
  code (fst (dispatch API_KEY r s)) <> 200 ->
  code (fst (dispatch API_KEY r s)) <> 201 ->
  tickets (snd (dispatch API_KEY r s)) = tickets s.
Proof.
  unfold dispatch.
  destruct (require_key API_KEY r); [reflexivity |].
  unfold handle.
  destruct (match_path (req_path r)) as [e |]; [| reflexivity].
  destruct e, (req_method r); try reflexivity.
  - unfold login. cbv zeta.
    destruct (field_str (request_data (req_body r)) "api_key"); simpl; [| reflexivity].
    destruct (String.eqb API_KEY ""); [reflexivity |].
    destruct (negb _); reflexivity.
  - unfold get_tickets, sql_select_all. destruct (db_up s); reflexivity.
  - destruct (post_ticket_cases (req_body r) s) as [H | [H | (t & d & _ & _ & _ & _ & _ & H)]];
      rewrite H; simpl; try reflexivity.
    intros _ C. exfalso. apply C. reflexivity.
  - unfold get_ticket, sql_select_one. destruct (db_up s); simpl; [| reflexivity].
    destruct (sql_int_param_ok id); simpl; [| reflexivity].
    destruct (find _ _); reflexivity.
  - destruct (update_ticket_cases id (req_body r) s) as [H | [H | (st & _ & _ & _ & H)]];
      rewrite H; simpl; try reflexivity.
    destruct (Nat.eqb_spec (length (filter (matches_id id) (tickets s))) 0) as [E | E];
      simpl.
    + intros _ _. apply update_map_no_match. exact E.
    + intros C. exfalso. apply C. reflexivity.
  - destruct (delete_ticket_cases id s) as [H | [_ H]]; rewrite H; simpl; [reflexivity |].
    destruct (Nat.eqb_spec (length (filter (matches_id id) (tickets s))) 0) as [E | E];
      simpl.
    + intros _ _. apply delete_filter_no_match. exact E.
    + intros C. exfalso. apply C. reflexivity.
Qed.

Lemma failed_requests_keep_rows_witness :
  code (fst (dispatch "" (mkRequest PATCH "/tickets/9" None None
                            (Some (JObj [("status", JStr "Open")]))) empty_store)) <> 200
  /\ code (fst (dispatch "" (mkRequest PATCH "/tickets/9" None None
                            (Some (JObj [("status", JStr "Open")]))) empty_store)) <> 201
  /\ tickets (snd (dispatch "" (mkRequest PATCH "/tickets/9" None None
                            (Some (JObj [("status", JStr "Open")]))) empty_store))
     = tickets empty_store.
Proof.
  assert (H1 : code (fst (dispatch "" (mkRequest PATCH "/tickets/9" None None
                   (Some (JObj [("status", JStr "Open")]))) empty_store)) <> 200)
    by (vm_compute; discriminate).
  assert (H2 : code (fst (dispatch "" (mkRequest PATCH "/tickets/9" None None
                   (Some (JObj [("status", JStr "Open")]))) empty_store)) <> 201)
    by (vm_compute; discriminate).
  split; [exact H1 |]. split; [exact H2 |].
  apply failed_requests_keep_rows; assumption.
Defined.

(** No view is registered for PUT: a PUT request is answered 401, 404 or
    405 and never changes the store. *)
Theorem put_never_handled (API_KEY : string) (r : request) (s : store) :
  req_method r = PUT ->
  snd (dispatch API_KEY r s) = s
  /\ (code (fst (dispatch API_KEY r s)) = 401 \/ code (fst (dispatch API_KEY r s)) = 404
      \/ code (fst (dispatch API_KEY r s)) = 405).
Proof.
  intros Hm. unfold dispatch.
  destruct (require_key API_KEY r) as [resp |] eqn:Hg.
  - apply gate_rejects_only_with_key in Hg. destruct Hg as (_ & _ & ->).
    simpl. auto.
  - unfold handle. rewrite Hm.
    destruct (match_path (req_path r)) as [[] |]; simpl; auto.
Qed.

Lemma put_never_handled_witness :
  snd (dispatch "" (mkRequest PUT "/tickets/1" None None None) empty_store) = empty_store
  /\ (code (fst (dispatch "" (mkRequest PUT "/tickets/1" None None None) empty_store)) = 401
      \/ code (fst (dispatch "" (mkRequest PUT "/tickets/1" None None None) empty_store)) = 404
      \/ code (fst (dispatch "" (mkRequest PUT "/tickets/1" None None None) empty_store)) = 405).
Proof. apply put_never_handled. reflexivity. Defined.

(** ** Row identity and lookups *)

Lemma find_id_none (id : Z) (l : list ticket) :
  find (fun t => t_id t =? id) l = None <-> ~ In id (map t_id l).
Proof.
  induction l as [| t l IH]; simpl.
  - split; auto.
  - destruct (Z.eqb_spec (t_id t) id) as [E | E].
    + split; [discriminate | intros H; exfalso; apply H; left; exact E].
    + rewrite IH. split; intros H; [intros [H' | H']; auto | auto].
Qed.

Lemma find_app {A : Type} (p : A -> bool) (l1 l2 : list A) :
  find p (l1 ++ l2) = match find p l1 with Some x => Some x | None => find p l2 end.
Proof.
  induction l1 as [| x l1 IH]; simpl; [reflexivity |].
  destruct (p x); [reflexivity | exact IH].
Qed.

Lemma map_id_update (id : Z) (st : string) (l : list ticket) :
  map t_id (map (fun t => if t_id t =? id then set_status st t else t) l) = map t_id l.
Proof.
  rewrite map_map. apply map_ext. intros t. destruct (t_id t =? id); reflexivity.
Qed.

Lemma map_snoc {A B : Type} (f : A -> B) (l : list A) (x : A) :
  map f (l ++ [x]) = (map f l ++ [f x])%list.
Proof. induction l as [| y l IH]; simpl; [reflexivity | rewrite IH; reflexivity]. Qed.

Lemma ids_distinct_after_delete (id : Z) (l : list ticket) :
  NoDup (map t_id l) ->
  NoDup (map t_id (filter (fun t => negb (matches_id id t)) l)).
Proof.
  intros Hn. induction l as [| x l IH]; simpl; [constructor |].
  apply NoDup_cons_iff in Hn. destruct Hn as [Hnin Hn'].
  destruct (negb (matches_id id x)); simpl; [| apply IH; exact Hn'].
  apply NoDup_cons; [| apply IH; exact Hn'].
  intros Hin. apply in_map_iff in Hin. destruct Hin as (y & Hy & Hyin).
  apply filter_In in Hyin. apply Hnin. apply in_map_iff. exists y. tauto.
Qed.

Lemma dispatch_keeps_ids (API_KEY : string) (r : request) (s : store) :
  ids_ok s -> ids_ok (snd (dispatch API_KEY r s)).
Proof.
  intros [Hlt Hnd]. unfold dispatch.
  destruct (require_key API_KEY r); [split; assumption |].
  unfold handle.
  destruct (match_path (req_path r)) as [e |]; [| split; assumption].
  destruct e, (req_method r); try (split; assumption).
  - unfold login. cbv zeta.
    destruct (field_str (request_data (req_body r)) "api_key"); simpl;
      [| split; assumption].
    destruct (String.eqb API_KEY ""); [split; assumption |].
    destruct (negb _); split; assumption.
  - unfold get_tickets, sql_select_all. destruct (db_up s); split; assumption.
  - destruct (post_ticket_cases (req_body r) s) as [H | [H | (t & d & _ & _ & _ & _ & _ & H)]];
      rewrite H; simpl; try (split; assumption).
    split.
    + apply Forall_app. split.
      * rewrite Forall_forall in *. intros u Hu. specialize (Hlt u Hu). simpl. lia.
      * constructor; [simpl; lia | constructor].
    + simpl. rewrite map_snoc.
      apply (Permutation_NoDup (Permutation_cons_append _ _)).
      constructor; [| exact Hnd].
      intros Hin. apply in_map_iff in Hin. destruct Hin as (u & Hu & Hin).
      rewrite Forall_forall in Hlt. specialize (Hlt u Hin). simpl in *. lia.
  - unfold get_ticket, sql_select_one. destruct (db_up s); simpl; [| split; assumption].
    destruct (sql_int_param_ok id); simpl; [| split; assumption].
    destruct (find _ _); split; assumption.
  - destruct (update_ticket_cases id (req_body r) s) as [H | [H | (st & _ & _ & _ & H)]];
      rewrite H; simpl; try (split; assumption).
    split.
    + apply Forall_map. eapply Forall_impl; [| exact Hlt]. intros u Hu.
      destruct (t_id u =? id); exact Hu.
    + simpl. rewrite map_id_update. exact Hnd.
  - destruct (delete_ticket_cases id s) as [H | [_ H]]; rewrite H; simpl;
      [split; assumption |].
    split.
    + rewrite Forall_forall in *. intros u Hu. apply filter_In in Hu. apply Hlt, Hu.
    + apply ids_distinct_after_delete. exact Hnd.
Qed.

(** In every reachable state the ticket ids are distinct and all below the
    next IDENTITY value. *)
Theorem reachable_ids_distinct (s : store) :
  reachable s ->
  Forall (fun t => t_id t < next_id s) (tickets s) /\ NoDup (map t_id (tickets s)).
Proof.
  intros Hr. change (ids_ok s).
  induction Hr as [up n c | K r s _ IH | c s _ IH | up s _ IH].
  - split; constructor.
  - apply dispatch_keeps_ids. exact IH.
  - exact IH.
  - exact IH.
Qed.

Lemma reachable_ids_distinct_witness :
  reachable (snd (dispatch "" (mkRequest POST "/tickets" None None
                   (Some (JObj [("title", JStr "a"); ("description", JStr "b")])))
                   (mkStore true [] 1 0)))
  /\ (Forall (fun t => t_id t < next_id (snd (dispatch "" (mkRequest POST "/tickets" None None
                   (Some (JObj [("title", JStr "a"); ("description", JStr "b")])))
                   (mkStore true [] 1 0))))
        (tickets (snd (dispatch "" (mkRequest POST "/tickets" None None
                   (Some (JObj [("title", JStr "a"); ("description", JStr "b")])))
                   (mkStore true [] 1 0))))
      /\ NoDup (map t_id (tickets (snd (dispatch "" (mkRequest POST "/tickets" None None
                   (Some (JObj [("title", JStr "a"); ("description", JStr "b")])))
                   (mkStore true [] 1 0)))))).
Proof.
  assert (Hr : reachable (snd (dispatch "" (mkRequest POST "/tickets" None None
                   (Some (JObj [("title", JStr "a"); ("description", JStr "b")])))
                   (mkStore true [] 1 0)))).
  { apply reach_request. apply reach_init. }
  split; [exact Hr |]. apply reachable_ids_distinct. exact Hr.
Defined.

(** With the store reachable, for an id in the range of the [INT] id column,
    [GET /tickets/<id>] answers 404 exactly when no row has that id. *)
Theorem get_ticket_not_found_iff (id : Z) (s : store) :
  db_up s = true ->
  0 <= id <= 2147483647 ->
  (code (fst (get_ticket id s)) = 404 <-> ~ In id (map t_id (tickets s))).
Proof.
  intros Hup Hr. rewrite <- find_id_none.
  unfold get_ticket, sql_select_one. rewrite Hup, (int_column_id_bindable id Hr). simpl.
  destruct (find _ _); simpl; split; congruence.
Qed.

Lemma get_ticket_not_found_iff_witness :
  db_up empty_store = true
  /\ (code (fst (get_ticket 5 empty_store)) = 404 <-> ~ In 5 (map t_id (tickets empty_store))).
Proof.
  split; [reflexivity |]. apply get_ticket_not_found_iff; [reflexivity | split; discriminate].
Defined.

Lemma find_update (id : Z) (st : string) (l : list ticket) :
  find (fun t => t_id t =? id) (map (fun t => if t_id t =? id then set_status st t else t) l)
  = option_map (set_status st) (find (fun t => t_id t =? id) l).
Proof.
  induction l as [| t l IH]; simpl; [reflexivity |].
  destruct (t_id t =? id) eqn:E; simpl; [rewrite E; reflexivity |].
  rewrite E. exact IH.
Qed.

Lemma find_id_some (id : Z) (l : list ticket) :
  length (filter (matches_id id) l) <> 0%nat ->
  exists t, find (fun t => t_id t =? id) l = Some t /\ t_id t = id.
Proof.
  unfold matches_id.
  induction l as [| t l IH]; simpl; [contradiction |].
  destruct (Z.eqb_spec (t_id t) id) as [E | E]; simpl.
  - intros _. exists t. auto.
  - exact IH.
Qed.

Lemma find_after_delete (id : Z) (l : list ticket) :
  find (fun t => t_id t =? id) (filter (fun t => negb (matches_id id t)) l) = None.
Proof.
  unfold matches_id.
  induction l as [| t l IH]; simpl; [reflexivity |].
  destruct (t_id t =? id) eqn:E; simpl; [exact IH |].
  rewrite E. exact IH.
Qed.

Lemma filter_after_delete (id : Z) (l : list ticket) :
  filter (matches_id id) (filter (fun t => negb (matches_id id t)) l) = [].
Proof.
  induction l as [| t l IH]; simpl; [reflexivity |].
  destruct (matches_id id t) eqn:E; simpl; [exact IH |].
  rewrite E. exact IH.
Qed.

(** ** Round trips between operations *)

(** After a successful create in a reachable state, the new ticket is found
    under the id it was given (the next IDENTITY value): its title and
    description are the trimmed fields of the request, its status [Open] and
    its [created_at] the server time of the insert. *)
Theorem create_then_get (body : option json) (s : store) :
  reachable s ->
  code (fst (post_ticket body s)) = 201 ->
  exists title description,
    field_str (request_data body) "title" = Ok title
    /\ field_str (request_data body) "description" = Ok description
    /\ get_ticket (next_id s) (snd (post_ticket body s))
       = (json_response 200
            (ticket_json (mkTicket (next_id s) title description "Open" (clock s))),
          snd (post_ticket body s)).
Proof.
  intros Hr Hc. destruct (reachable_ids_distinct s Hr) as [Hlt _].
  pose proof (int_value_bindable _ (post_ticket_created_in_range body s Hc)) as Hb.
  destruct (post_ticket_cases body s)
    as [H | [H | (t & d & Ht & Hd & _ & _ & Hup & H)]];
    rewrite H in *; simpl in *; try discriminate.
  exists t, d. split; [exact Ht |]. split; [exact Hd |].
  unfold get_ticket, sql_select_one. simpl. rewrite Hup, Hb. simpl.
  rewrite find_app.
  assert (Hn : find (fun u => t_id u =? next_id s) (tickets s) = None).
  { apply find_id_none. intros Hin. apply in_map_iff in Hin.
    destruct Hin as (u & Hu & Hin). rewrite Forall_forall in Hlt.
    specialize (Hlt u Hin). lia. }
  rewrite Hn. simpl. rewrite Z.eqb_refl. reflexivity.
Qed.

Lemma create_then_get_witness :
  reachable empty_store
  /\ code (fst (post_ticket (Some (JObj [("title", JStr " a "); ("description", JStr "b")]))
                  empty_store)) = 201
  /\ exists title description,
    field_str (request_data (Some (JObj [("title", JStr " a "); ("description", JStr "b")])))
      "title" = Ok title
    /\ field_str (request_data (Some (JObj [("title", JStr " a "); ("description", JStr "b")])))
      "description" = Ok description
    /\ get_ticket (next_id empty_store)
         (snd (post_ticket (Some (JObj [("title", JStr " a "); ("description", JStr "b")]))
                 empty_store))
       = (json_response 200
            (ticket_json (mkTicket (next_id empty_store) title description "Open"
                            (clock empty_store))),
          snd (post_ticket (Some (JObj [("title", JStr " a "); ("description", JStr "b")]))
                 empty_store)).
Proof.
  assert (Hr : reachable empty_store) by apply reach_init.
  split; [exact Hr |]. split; [reflexivity |].
  apply create_then_get; [exact Hr | reflexivity].
Defined.

(** After a delete with the store reachable, for an id in the range of the
    [INT] id column, the id is gone: reading it answers 404 and deleting it
    again answers 404. *)
Theorem delete_then_not_found (id : Z) (s : store) :
  db_up s = true ->
  0 <= id <= 2147483647 ->
  fst (get_ticket id (snd (delete_ticket id s))) = error_response 404 "not found"
  /\ fst (delete_ticket id (snd (delete_ticket id s))) = error_response 404 "not found".
Proof.
  intros Hup Hr. pose proof (int_column_id_bindable id Hr) as Hb.
  assert (Hd : snd (delete_ticket id s)
               = set_tickets s (filter (fun t => negb (matches_id id t)) (tickets s))).
  { unfold delete_ticket, sql_delete. rewrite Hup, Hb. simpl.
    destruct (Nat.eqb _ _); reflexivity. }
  rewrite Hd. split.
    + unfold get_ticket, sql_select_one. simpl. rewrite Hup, Hb. simpl.
      rewrite find_after_delete. reflexivity.
    + unfold delete_ticket, sql_delete. simpl. rewrite Hup, Hb. simpl.
      change (filter (fun t => t_id t =? id)
                (filter (fun t => negb (matches_id id t)) (tickets s)))
        with (filter (matches_id id)
                (filter (fun t => negb (matches_id id t)) (tickets s))).
      rewrite filter_after_delete. reflexivity.
Qed.

Lemma delete_then_not_found_witness :
  db_up (mkStore true [mkTicket 1 "a" "b" "Open" 0] 2 0) = true
  /\ (fst (get_ticket 1 (snd (delete_ticket 1 (mkStore true [mkTicket 1 "a" "b" "Open" 0] 2 0))))
      = error_response 404 "not found"
      /\ fst (delete_ticket 1 (snd (delete_ticket 1 (mkStore true [mkTicket 1 "a" "b" "Open" 0] 2 0))))
      = error_response 404 "not found").
Proof.
  split; [reflexivity |]. apply delete_then_not_found; [reflexivity | split; discriminate].
Defined.

Lemma update_ok_bindable (id : Z) (body : option json) (s : store) :
  code (fst (update_ticket id body s)) = 200 -> sql_int_param_ok id = true.
Proof.
  unfold update_ticket. cbv zeta.
  destruct (field_str (request_data body) "status"); simpl; [| discriminate].
  destruct (negb _); simpl; [discriminate |].
  unfold sql_update_status. destruct (db_up s); simpl; [| discriminate].
  destruct (sql_int_param_ok id); simpl; [reflexivity | discriminate].
Qed.

(** After a successful update, reading the ticket shows the row with that id
    carrying the trimmed status of the request. *)
Theorem update_then_get (id : Z) (body : option json) (s : store) :
  code (fst (update_ticket id body s)) = 200 ->
  exists st t,
    field_str (request_data body) "status" = Ok st
    /\ get_ticket id (snd (update_ticket id body s))
       = (json_response 200 (ticket_json t), snd (update_ticket id body s))
    /\ t_id t = id /\ t_status t = st.
Proof.
  intros Hc. pose proof (update_ok_bindable id body s Hc) as Hb.
  destruct (update_ticket_cases id body s) as [H | [H | (st & Hs & _ & Hup & H)]];
    rewrite H in *; simpl in *; try discriminate.
  destruct (Nat.eqb_spec (length (filter (matches_id id) (tickets s))) 0) as [E | E];
    simpl in Hc; [discriminate |].
  destruct (find_id_some id (tickets s) E) as (t & Hf & Hid).
  exists st, (set_status st t). split; [exact Hs |].
  unfold get_ticket, sql_select_one. simpl. rewrite Hup, Hb. simpl.
  rewrite find_update, Hf. simpl. auto.
Qed.

Lemma update_then_get_witness :
  code (fst (update_ticket 1 (Some (JObj [("status", JStr "Closed")]))
               (mkStore true [mkTicket 1 "a" "b" "Open" 0] 2 0))) = 200
  /\ exists st t,
    field_str (request_data (Some (JObj [("status", JStr "Closed")]))) "status" = Ok st
    /\ get_ticket 1 (snd (update_ticket 1 (Some (JObj [("status", JStr "Closed")]))
               (mkStore true [mkTicket 1 "a" "b" "Open" 0] 2 0)))
       = (json_response 200 (ticket_json t),
          snd (update_ticket 1 (Some (JObj [("status", JStr "Closed")]))
               (mkStore true [mkTicket 1 "a" "b" "Open" 0] 2 0)))
    /\ t_id t = 1 /\ t_status t = st.
Proof.
  split; [reflexivity |]. apply update_then_get. reflexivity.
Defined.

(** Repeating an update request leaves the table as the first one did. *)
Theorem update_idempotent (id : Z) (body : option json) (s : store) :
  tickets (snd (update_ticket id body (snd (update_ticket id body s))))
  = tickets (snd (update_ticket id body s)).
Proof.
  destruct (update_ticket_cases id body s) as [H | [H | (st & Hs & _ & _ & H)]];
    rewrite H; simpl; try (rewrite H; reflexivity).
  destruct (update_ticket_cases id body
              (set_tickets s (map (fun t => if t_id t =? id then set_status st t else t)
                                  (tickets s))))
    as [H2 | [H2 | (st2 & Hs2 & _ & _ & H2)]];
    rewrite H2; simpl; try reflexivity.
  rewrite Hs in Hs2. injection Hs2 as <-.
  rewrite map_map. apply map_ext. intros t.
  destruct (t_id t =? id) eqn:E; simpl; rewrite ?E; reflexivity.
Qed.

(** ** Non-empty text fields *)

Lemma dispatch_keeps_nonempty_text (API_KEY : string) (r : request) (s : store) :
  Forall (fun t => t_title t <> "" /\ t_description t <> "") (tickets s) ->
  Forall (fun t => t_title t <> "" /\ t_description t <> "")
         (tickets (snd (dispatch API_KEY r s))).
Proof.
  intros Hs. unfold dispatch.
  destruct (require_key API_KEY r); [exact Hs |].
  unfold handle.
  destruct (match_path (req_path r)) as [e |]; [| exact Hs].
  destruct e, (req_method r); try exact Hs.
  - unfold login. cbv zeta.
    destruct (field_str (request_data (req_body r)) "api_key"); simpl; [| exact Hs].
    destruct (String.eqb API_KEY ""); [exact Hs |].
    destruct (negb _); exact Hs.
  - unfold get_tickets, sql_select_all. destruct (db_up s); exact Hs.
  - destruct (post_ticket_cases (req_body r) s)
      as [H | [H | (t & d & _ & _ & Ht & Hd & _ & H)]];
      rewrite H; simpl; try exact Hs.
    apply Forall_app. split; [exact Hs |].
    constructor; [simpl; auto | constructor].
  - unfold get_ticket, sql_select_one. destruct (db_up s); simpl; [| exact Hs].
    destruct (sql_int_param_ok id); simpl; [| exact Hs].
    destruct (find _ _); exact Hs.
  - destruct (update_ticket_cases id (req_body r) s) as [H | [H | (st & _ & _ & _ & H)]];
      rewrite H; simpl; try exact Hs.
    rewrite Forall_forall in *. intros u Hu. apply in_map_iff in Hu.
    destruct Hu as (v & <- & Hv). specialize (Hs v Hv).
    destruct (t_id v =? id); exact Hs.
  - destruct (delete_ticket_cases id s) as [H | [_ H]]; rewrite H; simpl; [exact Hs |].
    rewrite Forall_forall in *. intros u Hu. apply filter_In in Hu. apply Hs, Hu.
Qed.

(** In every reachable state every ticket has a non-empty title and a
    non-empty description: the create view refuses empty ones and no other
    view writes these columns. *)
Theorem reachable_text_nonempty (s : store) :
  reachable s ->
  Forall (fun t => t_title t <> "" /\ t_description t <> "") (tickets s).
Proof.
  intros Hr.
  induction Hr as [up n c | K r s _ IH | c s _ IH | up s _ IH].
  - constructor.
  - apply dispatch_keeps_nonempty_text. exact IH.
  - exact IH.
  - exact IH.
Qed.

Lemma reachable_text_nonempty_witness :
  reachable (snd (dispatch "" (mkRequest POST "/tickets" None None
                   (Some (JObj [("title", JStr "a"); ("description", JStr "b")])))
                   (mkStore true [] 1 0)))
  /\ Forall (fun t => t_title t <> "" /\ t_description t <> "")
       (tickets (snd (dispatch "" (mkRequest POST "/tickets" None None
                   (Some (JObj [("title", JStr "a"); ("description", JStr "b")])))
                   (mkStore true [] 1 0)))).
Proof.
  assert (Hr : reachable (snd (dispatch "" (mkRequest POST "/tickets" None None
                   (Some (JObj [("title", JStr "a"); ("description", JStr "b")])))
                   (mkStore true [] 1 0)))).
  { apply reach_request. apply reach_init. }
  split; [exact Hr |]. apply reachable_text_nonempty. exact Hr.
Defined.
